(** * goban.py: layout of a Go board as a list of SVG primitives

    A shallow embedding of [src/goban.py] (class [GoBoard] and the option
    tables of the module) and the properties of the layout it computes.

    Numbers are Python numbers: unbounded integers and binary64 floats,
    with the coercion of mixed arithmetic.  The file is a Python 2 script
    (its first line asks for [python2]), so [/] between two integers is
    floor division.  The drawing backend (svgwrite) is outside the
    repository: a drawing is the ordered list of the elements added to it,
    each element a record of the arguments it was created with. *)

From Stdlib Require Import ZArith List String Bool Lia Floats.
Import ListNotations.

Set Warnings "-inexact-float".

Local Open Scope string_scope.
Local Open Scope list_scope.
Local Open Scope Z_scope.

(** ** Python numbers *)

Module PyNum.

Inductive num : Type :=
| Int (z : Z)
| Float (f : float).

(** [float(z)] for an integer: the nearest binary64 value, ties to even.
    (Python raises OverflowError where the result here is an infinity,
    from 2^1024 on; no board option comes near.) *)
Definition float_of_Z (z : Z) : float :=
  SF2Prim (binary_normalize prec emax z 0 false).

Definition to_float (n : num) : float :=
  match n with
  | Int z => float_of_Z z
  | Float f => f
  end.

Definition add (a b : num) : num :=
  match a, b with
  | Int x, Int y => Int (x + y)
  | _, _ => Float (to_float a + to_float b)
  end.

Definition sub (a b : num) : num :=
  match a, b with
  | Int x, Int y => Int (x - y)
  | _, _ => Float (to_float a - to_float b)
  end.

Definition mul (a b : num) : num :=
  match a, b with
  | Int x, Int y => Int (x * y)
  | _, _ => Float (to_float a * to_float b)
  end.

Definition neg (a : num) : num :=
  match a with
  | Int x => Int (- x)
  | Float f => Float (- f)
  end.

(** [a / 2], the divisor being the integer literal: floor division of an
    integer, float division of a float. *)
Definition div_2 (a : num) : num :=
  match a with
  | Int x => Int (x / 2)
  | Float f => Float (f / 2)
  end.

(** [a / 2.], the divisor being the float literal: always a float. *)
Definition div_2f (a : num) : num :=
  Float (to_float a / 2).

End PyNum.
Export PyNum.

Arguments float_of_Z : simpl never.

Declare Scope num_scope.
Delimit Scope num_scope with num.
Bind Scope num_scope with num.
Infix "+" := add : num_scope.
Infix "-" := sub : num_scope.
Infix "*" := mul : num_scope.
Notation "- a" := (neg a) : num_scope.

(** ** Exceptions *)

Inductive exception : Type :=
| Exception (msg : string)
| ValueError (msg : string)
| TypeError (msg : string)
| IndexError (msg : string)
| AttributeError (msg : string).

(** ** Sequences of two numbers and dynamically typed arguments *)

(** The start and end of a line and the centre of a circle are tuples or
    lists of two numbers. *)
Definition point : Type := (num * num)%type.

Definition getitem (p : point) (i : nat) : num :=
  match i with
  | O => fst p
  | _ => snd p
  end.

Definition setitem (p : point) (i : nat) (v : num) : point :=
  match i with
  | O => (v, snd p)
  | _ => (fst p, v)
  end.

(** [p[i] += v] *)
Definition iadd_item (p : point) (i : nat) (v : num) : point :=
  setitem p i (getitem p i + v)%num.

(** A positional argument of a method call. *)
Inductive pyval : Type :=
| VSeq (p : point)
| VNum (n : num).

(** [list(v)] *)
Definition as_list (v : pyval) : exception + point :=
  match v with
  | VSeq p => inr p
  | VNum _ => inl (TypeError "object is not iterable")
  end.

(** The position an index value selects in a sequence of length two. *)
Definition as_index (v : pyval) : exception + nat :=
  match v with
  | VNum (Int 0) | VNum (Int (-2)) => inr 0%nat
  | VNum (Int 1) | VNum (Int (-1)) => inr 1%nat
  | VNum (Int _) => inl (IndexError "list index out of range")
  | _ => inl (TypeError "list indices must be integers")
  end.

(** ** The drawing backend *)

Module Svg.

Inductive element : Type :=
| Rect (insert : option point) (size : point)
       (stroke : string) (stroke_width : num) (fill : string) (rx ry : num)
| Line (start end_ : point) (stroke : string) (stroke_width : num)
| Circle (center : point) (r : num)
         (fill : string) (stroke : string) (stroke_width : num).

(** [svgwrite.Drawing(size=(w unit, h unit), viewBox=0 0 w h)] and the
    elements added to it, oldest first. *)
Record Drawing : Type := mkDrawing {
  canvas_width : num;
  canvas_height : num;
  canvas_unit : string;
  elements : list element
}.

Definition new_drawing (w h : num) (u : string) : Drawing :=
  mkDrawing w h u [].

Definition add (d : Drawing) (e : element) : Drawing :=
  mkDrawing (canvas_width d) (canvas_height d) (canvas_unit d)
            (elements d ++ [e]).

Definition is_line (e : element) : bool :=
  match e with Line _ _ _ _ => true | _ => false end.

Definition is_circle (e : element) : bool :=
  match e with Circle _ _ _ _ _ => true | _ => false end.

Definition is_rect (e : element) : bool :=
  match e with Rect _ _ _ _ _ _ _ => true | _ => false end.

End Svg.
Export Svg.

(** ** Methods: state and exceptions

    A method body runs on the attribute [self.drawing] ([None] until a
    drawing is made) and either returns or raises; what it added to the
    drawing before raising stays there. *)

Definition M (A : Type) : Type :=
  option Drawing -> (exception + A) * option Drawing.

Definition ret {A} (a : A) : M A := fun s => (inr a, s).

Definition raise {A} (e : exception) : M A := fun s => (inl e, s).

Definition bind {A B} (m : M A) (k : A -> M B) : M B :=
  fun s =>
    match m s with
    | (inr a, s') => k a s'
    | (inl e, s') => (inl e, s')
    end.

Definition lift {A} (r : exception + A) : M A :=
  match r with
  | inr a => ret a
  | inl e => raise e
  end.

Declare Scope py_scope.
Delimit Scope py_scope with py.
Notation "x <- m ;; k" := (bind m (fun x => k))
  (at level 61, m at next level, right associativity) : py_scope.
Notation "m ;; k" := (bind m (fun _ => k))
  (at level 61, right associativity) : py_scope.

(** [self.drawing = d] *)
Definition set_drawing (d : Drawing) : M Datatypes.unit :=
  fun _ => (inr tt, Some d).

(** [self.drawing.add(self.drawing.<shape>(...))] *)
Definition add_element (e : element) : M Datatypes.unit :=
  fun s =>
    match s with
    | Some d => (inr tt, Some (Svg.add d e))
    | None => (inl (AttributeError "'NoneType' object has no attribute"), None)
    end.

(** [for x in xs: acc = body(x, acc)], the loop carrying the local
    variables it rebinds. *)
Fixpoint for_each {A S} (xs : list A) (body : A -> S -> M S) (acc : S) : M S :=
  match xs with
  | [] => ret acc
  | x :: xs' => (acc' <- body x acc ;; for_each xs' body acc')%py
  end.

(** [range(n)] *)
Definition range (n : Z) : list Z :=
  map Z.of_nat (seq 0 (Z.to_nat n)).

(** ** Options *)

Record Colors : Type := mkColors {
  cut_stroke : string;
  mark_stroke : string;
  background : string
}.

(** The dictionary [GoBoard.__init__] receives: the entries its docstring
    lists, the entries of a [sizeOptions] value and [half_board].  (The
    [output] file names are used by [main] alone.) *)
Record Options : Type := mkOptions {
  border : bool;
  margin : num;
  rounded_corners : num;
  spacing_horizontal : num;
  spacing_vertical : num;
  linewidth : num;
  multiple_lines : Z;
  multiple_lines_spacing : num;
  star_diameter : num;
  unit : string;
  colors : Colors;
  lines_horizontal : Z;
  lines_vertical : Z;
  star_points : list (Z * Z);
  half_board : bool
}.

Record SizeOption : Type := mkSizeOption {
  size_lines_horizontal : Z;
  size_lines_vertical : Z;
  size_star_points : list (Z * Z)
}.

Definition sizeOptions : list (string * SizeOption) :=
  [ ("7", mkSizeOption 7 7 [(2, 2); (4, 2); (2, 4); (4, 4)]);
    ("9", mkSizeOption 9 9 [(2, 2); (6, 2); (4, 4); (2, 6); (6, 6)]);
    ("13", mkSizeOption 13 13 [(3, 3); (9, 3); (6, 6); (3, 9); (9, 9)]);
    ("19", mkSizeOption 19 19
       [(3, 3); (9, 3); (15, 3); (3, 9); (9, 9); (15, 9);
        (3, 15); (9, 15); (15, 15)]) ].

Fixpoint lookup {V} (k : string) (d : list (string * V)) : option V :=
  match d with
  | [] => None
  | (k', v) :: d' => if String.eqb k k' then Some v else lookup k d'
  end.

(** [options = sizeOptions[size]; options.update(DefaultOptions)] followed
    by the three entries [main] takes from the command line. *)
Definition main_options (s : SizeOption)
    (arg_half_board arg_no_border : bool) (arg_rounded_corners : Z) : Options :=
  {| border := negb arg_no_border;
     margin := Int 15;
     rounded_corners := Int arg_rounded_corners;
     spacing_horizontal := Int 22;
     spacing_vertical := Float 23.7;
     linewidth := Float 0.15;
     multiple_lines := 2;
     multiple_lines_spacing := Float 0.25;
     star_diameter := Int 4;
     unit := "mm";
     colors := mkColors "black" "red" "white";
     lines_horizontal := size_lines_horizontal s;
     lines_vertical := size_lines_vertical s;
     star_points := size_star_points s;
     half_board := arg_half_board |}.

(** [DefaultOptions] on a size: border drawn, corner radius 10. *)
Definition DefaultOptions (s : SizeOption) (arg_half_board : bool) : Options :=
  main_options s arg_half_board false 10.

Definition with_lines_vertical (o : Options) (lv : Z) : Options :=
  {| border := border o;
     margin := margin o;
     rounded_corners := rounded_corners o;
     spacing_horizontal := spacing_horizontal o;
     spacing_vertical := spacing_vertical o;
     linewidth := linewidth o;
     multiple_lines := multiple_lines o;
     multiple_lines_spacing := multiple_lines_spacing o;
     star_diameter := star_diameter o;
     unit := unit o;
     colors := colors o;
     lines_horizontal := lines_horizontal o;
     lines_vertical := lv;
     star_points := star_points o;
     half_board := half_board o |}.

(** ** class GoBoard *)

(** The attributes of an instance: the options loaded into it
    ([self.__dict__.update(opt)], [lines_vertical] rebound for a half
    board), [width] and [height]. *)
Record GoBoard : Type := mkGoBoard {
  attrs :> Options;
  width : num;
  height : num
}.

Definition half_board_error : exception :=
  Exception "The half board option only works with an odd number of vertical lines.".

(** [GoBoard.__init__].  The warning about a margin smaller than the corner
    radius changes no attribute and is left out. *)
Definition GoBoard_init (opt : Options) : exception + GoBoard :=
  let width :=
    (Int (lines_horizontal opt - 1) * spacing_horizontal opt
     + linewidth opt + margin opt * Int 2)%num in
  if half_board opt then
    if lines_vertical opt mod 2 =? 0 then inl half_board_error
    else
      let lv := (lines_vertical opt + 1) / 2 in
      inr (mkGoBoard (with_lines_vertical opt lv) width
             (Int (lv - 1) * spacing_vertical opt
              + linewidth opt + margin opt)%num)
  else
    inr (mkGoBoard opt width
           (Int (lines_vertical opt - 1) * spacing_vertical opt
            + linewidth opt + margin opt * Int 2)%num).

Section Methods.

Variable self : GoBoard.

Local Open Scope py_scope.

(** [GoBoard.draw_multiple_lines(self, start, end, dir_count)], called with
    the positional arguments [args]. *)
Definition draw_multiple_lines (args : list pyval) : M Datatypes.unit :=
  match args with
  | [start; end_; dir_count] =>
      for_each (range (multiple_lines self))
        (fun l _ =>
           start_o <- lift (as_list start) ;;
           end_o <- lift (as_list end_) ;;
           let offset :=
             ((Int l - div_2f (Int (multiple_lines self)))
              * multiple_lines_spacing self)%num in
           i <- lift (as_index dir_count) ;;
           let start_o := iadd_item start_o i offset in
           let end_o := iadd_item end_o i offset in
           add_element
             (Line start_o end_o (mark_stroke (colors self)) (linewidth self)))
        tt
  | _ => raise (TypeError "draw_multiple_lines() takes exactly 4 arguments")
  end.

(** The locals [draw_lines] chooses by direction:
    [(line_count, spacing, line_length, dir_line, dir_count)]. *)
Definition direction_locals (direction : string)
  : option (Z * num * num * nat * nat) :=
  if String.eqb direction "vertical" then
    Some (lines_vertical self, spacing_vertical self,
          (spacing_horizontal self * Int (lines_horizontal self - 1))%num,
          0%nat, 1%nat)
  else if String.eqb direction "horizontal" then
    Some (lines_horizontal self, spacing_horizontal self,
          (spacing_vertical self * Int (lines_vertical self - 1))%num,
          1%nat, 0%nat)
  else None.

(** [GoBoard.draw_lines].  [start] has two values by its type, so the
    sanity check on its length passes. *)
Definition draw_lines (start : point) (direction : string) : M Datatypes.unit :=
  match direction_locals direction with
  | Some (line_count, spacing, line_length, dir_line, dir_count) =>
      for_each (range line_count)
        (fun _ start =>
           let end_ := iadd_item start dir_line line_length in
           draw_multiple_lines
             [VSeq start; VSeq end_; VNum (Int (Z.of_nat dir_count))] ;;
           ret (iadd_item start dir_count spacing))
        start ;;
      ret tt
  | None => raise (Exception "Directions can only be horizontal or vertical")
  end.

(** [GoBoard.draw_starpoint] *)
Definition draw_starpoint (pos : point) : M Datatypes.unit :=
  for_each (range (multiple_lines self))
    (fun l _ =>
       let diameter :=
         (star_diameter self
          + (Int l - Int (multiple_lines self)) * multiple_lines_spacing self)%num in
       add_element
         (Circle pos (div_2 diameter) "none"
                 (mark_stroke (colors self)) (linewidth self)))
    tt.

(** [GoBoard.draw_starpoints] *)
Definition draw_starpoints (start : point) : M Datatypes.unit :=
  let vert_pos_offset :=
    if half_board self then lines_vertical self - 1 else 0 in
  for_each (star_points self)
    (fun point _ =>
       let point := (fst point, snd point - vert_pos_offset) in
       if 0 <=? snd point then
         let center :=
           ((getitem start 0 + Int (fst point) * spacing_horizontal self
             - div_2 (multiple_lines_spacing self))%num,
            (getitem start 1 + Int (snd point) * spacing_vertical self
             - div_2 (multiple_lines_spacing self))%num) in
         draw_starpoint center
       else ret tt)
    tt.

(** The border of [GoBoard.draw]: a rounded rectangle, and for a half
    board the line that cuts its top off. *)
Definition draw_border : M Datatypes.unit :=
  let borderwidth := (width self - linewidth self)%num in
  let borderpos :=
    if half_board self then (Int 0, (- rounded_corners self)%num)
    else (Int 0, Int 0) in
  let borderheight :=
    if half_board self
    then (height self - linewidth self + rounded_corners self)%num
    else (height self - linewidth self)%num in
  add_element
    (Rect (Some borderpos) (borderwidth, borderheight)
          (cut_stroke (colors self)) (linewidth self)
          (background (colors self))
          (rounded_corners self) (rounded_corners self)) ;;
  if half_board self then
    add_element
      (Line (Int 0, Int 0) (width self, Int 0)
            (cut_stroke (colors self)) (linewidth self))
  else ret tt.

(** [GoBoard.draw] *)
Definition draw : M Datatypes.unit :=
  set_drawing (new_drawing (width self) (height self) (unit self)) ;;
  (if border self then draw_border else ret tt) ;;
  let start :=
    if half_board self then (margin self, Int 0)
    else (margin self, margin self) in
  draw_lines start "vertical" ;;
  draw_lines start "horizontal" ;;
  draw_starpoints start.

(** The (line count, spacing) pairs [draw_test] sweeps. *)
Definition test_lines : list (Z * num) :=
  [ (2, Float 0.1); (2, Float 0.2); (2, Float 0.3); (2, Float 0.4);
    (2, Float 0.5);
    (3, Float 0.1); (3, Float 0.2); (3, Float 0.3); (3, Float 0.4);
    (3, Float 0.5) ].

(** [len(lines)] *)
Definition len {A} (l : list A) : Z := Z.of_nat (List.length l).

(** [start[dir_count] += spacing] where [start] is a tuple. *)
Definition tuple_iadd_item (p : point) (i : nat) (v : num) : M point :=
  raise (TypeError "'tuple' object does not support item assignment").

(** [GoBoard.draw_test] *)
Definition draw_test : M Datatypes.unit :=
  let lines := test_lines in
  let margin := Int 10 in
  let line_length := Int 10 in
  let spacing := Int 10 in
  let width := (line_length + Int 2 * margin)%num in
  let height := (Int (len lines) * spacing + margin * Int 2)%num in
  set_drawing (new_drawing width height (unit self)) ;;
  add_element
    (Rect None (width, height)
          (cut_stroke (colors self)) (linewidth self)
          (background (colors self))
          (rounded_corners self) (rounded_corners self)) ;;
  let start := (margin, margin) in
  let dir_line := 0%nat in
  let dir_count := 1%nat in
  for_each (range (len lines))
    (fun i start =>
       let end_ := iadd_item start dir_line line_length in
       let multiple_lines := fst (nth (Z.to_nat i) lines (0, Int 0)) in
       let multiple_lines_spacing := snd (nth (Z.to_nat i) lines (0, Int 0)) in
       draw_multiple_lines
         [VSeq start; VSeq end_; VNum (Int multiple_lines);
          VNum multiple_lines_spacing; VNum (Int (Z.of_nat dir_count))] ;;
       tuple_iadd_item start dir_count spacing)
    start ;;
  ret tt.

End Methods.

(** [main] up to the file written at its end: the board of the chosen size
    is built and either the board or the test piece is drawn.  The result is
    what was raised, if anything, and the drawing there is to write. *)
Definition main (s : SizeOption)
    (arg_half_board arg_test arg_no_border : bool) (arg_rounded_corners : Z)
  : (exception + Datatypes.unit) * option Drawing :=
  match GoBoard_init
          (main_options s arg_half_board arg_no_border arg_rounded_corners) with
  | inl e => (inl e, None)
  | inr b => (if arg_test then draw_test b else draw b) None
  end.

(** ** Writing the drawing

    [saveas] and the truth value of a [Drawing] object belong to svgwrite:
    the files written are kept as a list, newest first, read with [lookup],
    and the truth value is a parameter. *)

Section Write.

Variable truthy : Drawing -> bool.




End Write.

(** ** Sample configurations *)

Definition size13 : SizeOption :=
  mkSizeOption 13 13 [(3, 3); (9, 3); (6, 6); (3, 9); (9, 9)].

(** A size outside [sizeOptions], with an even number of lines. *)
Definition size8 : SizeOption :=
  mkSizeOption 8 8 [(2, 2); (5, 2); (2, 5); (5, 5)].

(** The boards [GoBoard.__init__] builds from the defaults at size 13. *)
Definition board13 : GoBoard :=
  mkGoBoard (DefaultOptions size13 false)
            (Int 12 * Int 22 + Float 0.15 + Int 15 * Int 2)%num
            (Int 12 * Float 23.7 + Float 0.15 + Int 15 * Int 2)%num.

Definition half_board13 : GoBoard :=
  mkGoBoard (with_lines_vertical (DefaultOptions size13 true) 7)
            (Int 12 * Int 22 + Float 0.15 + Int 15 * Int 2)%num
            (Int 6 * Float 23.7 + Float 0.15 + Int 15)%num.

(** ** What the methods add to the drawing

    Pure readings of the loops: the elements a call appends, in order.
    The lemmas of the next part prove that the methods append exactly
    these. *)

Definition extend (d : Drawing) (es : list element) : Drawing :=
  mkDrawing (canvas_width d) (canvas_height d) (canvas_unit d)
            (elements d ++ es).

(** What a loop appends when each pass appends [out x acc] and leaves the
    carried locals at [step x acc]. *)
Fixpoint emitted {A S} (step : A -> S -> S) (out : A -> S -> list element)
    (xs : list A) (acc : S) : list element :=
  match xs with
  | [] => []
  | x :: xs' => out x acc ++ emitted step out xs' (step x acc)
  end.

Section Emitted.

Variable self : GoBoard.

(** The offset of stroke [l] from the centre line (draw_multiple_lines). *)
Definition stroke_offset (l : Z) : num :=
  ((Int l - div_2f (Int (multiple_lines self)))
   * multiple_lines_spacing self)%num.

Definition stroke (start end_ : point) (i : nat) (l : Z) : element :=
  Line (iadd_item start i (stroke_offset l))
       (iadd_item end_ i (stroke_offset l))
       (mark_stroke (colors self)) (linewidth self).

(** The strokes of one logical line. *)
Definition strokes (start end_ : point) (i : nat) : list element :=
  map (stroke start end_ i) (range (multiple_lines self)).

(** The logical lines of one direction: start and end of each centre line,
    [n] of them, the first at [start]. *)
Fixpoint logical_lines (n : nat) (start : point) (spacing line_length : num)
    (dir_line dir_count : nat) : list (point * point) :=
  match n with
  | O => []
  | S n' =>
      (start, iadd_item start dir_line line_length)
      :: logical_lines n' (iadd_item start dir_count spacing)
           spacing line_length dir_line dir_count
  end.

Definition grid_lines (start : point) (direction : string)
  : list (point * point) :=
  match direction_locals self direction with
  | Some (line_count, spacing, line_length, dir_line, dir_count) =>
      logical_lines (Z.to_nat line_count) start spacing line_length
                    dir_line dir_count
  | None => []
  end.

(** The axis along which the strokes of a direction are spread. *)
Definition spread_axis (direction : string) : nat :=
  match direction_locals self direction with
  | Some (_, _, _, _, dir_count) => dir_count
  | None => 0%nat
  end.

Definition grid_strokes (start : point) (direction : string) : list element :=
  flat_map (fun se => strokes (fst se) (snd se) (spread_axis direction))
           (grid_lines start direction).

(** The diameter of circle [l] of a star point (draw_starpoint). *)
Definition star_circle_diameter (l : Z) : num :=
  (star_diameter self
   + (Int l - Int (multiple_lines self)) * multiple_lines_spacing self)%num.

Definition star_circle (pos : point) (l : Z) : element :=
  Circle pos (div_2 (star_circle_diameter l)) "none"
         (mark_stroke (colors self)) (linewidth self).

Definition star_circles (pos : point) : list element :=
  map (star_circle pos) (range (multiple_lines self)).

Definition vert_pos_offset : Z :=
  if half_board self then lines_vertical self - 1 else 0.

(** A star point moved by the vertical offset. *)
Definition shifted (p : Z * Z) : Z * Z :=
  (fst p, snd p - vert_pos_offset).

(** The centre of the star point at grid position [p] (already moved). *)
Definition star_center (start : point) (p : Z * Z) : point :=
  ((getitem start 0 + Int (fst p) * spacing_horizontal self
    - div_2 (multiple_lines_spacing self))%num,
   (getitem start 1 + Int (snd p) * spacing_vertical self
    - div_2 (multiple_lines_spacing self))%num).

(** The star points that stay on the board, moved. *)
Definition retained_star_points : list (Z * Z) :=
  filter (fun p => 0 <=? snd p) (map shifted (star_points self)).

Definition star_elements (start : point) : list element :=
  flat_map (fun p => star_circles (star_center start p)) retained_star_points.

Definition border_rect : element :=
  Rect (Some (if half_board self then (Int 0, (- rounded_corners self)%num)
              else (Int 0, Int 0)))
       ((width self - linewidth self)%num,
        if half_board self
        then (height self - linewidth self + rounded_corners self)%num
        else (height self - linewidth self)%num)
       (cut_stroke (colors self)) (linewidth self)
       (background (colors self))
       (rounded_corners self) (rounded_corners self).

Definition top_cut : element :=
  Line (Int 0, Int 0) (width self, Int 0)
       (cut_stroke (colors self)) (linewidth self).

Definition border_elements : list element :=
  if border self then
    border_rect :: (if half_board self then [top_cut] else [])
  else [].

(** The top left point of the grid. *)
Definition grid_start : point :=
  if half_board self then (margin self, Int 0)
  else (margin self, margin self).

Definition board_elements : list element :=
  border_elements
  ++ grid_strokes grid_start "vertical"
  ++ grid_strokes grid_start "horizontal"
  ++ star_elements grid_start.

End Emitted.

(** [len(filter(p, l))] *)
Definition count (p : element -> bool) (l : list element) : Z :=
  len (filter p l).

(** The stroke colour and the stroke width an element was made with. *)
Definition stroke_of (e : element) : string :=
  match e with
  | Rect _ _ stroke _ _ _ _ => stroke
  | Line _ _ stroke _ => stroke
  | Circle _ _ _ stroke _ => stroke
  end.

Definition stroke_width_of (e : element) : num :=
  match e with
  | Rect _ _ _ w _ _ _ => w
  | Line _ _ _ w => w
  | Circle _ _ _ _ w => w
  end.

(** ** The loops append what their readings say *)

Lemma extend_nil d : extend d [] = d.
Proof. destruct d; unfold extend; simpl; now rewrite app_nil_r. Qed.

Lemma extend_extend d a b : extend (extend d a) b = extend d (a ++ b).
Proof. unfold extend; simpl; now rewrite app_assoc. Qed.

Lemma add_extend d e : Svg.add d e = extend d [e].
Proof. reflexivity. Qed.

Lemma elements_extend d es : elements (extend d es) = elements d ++ es.
Proof. reflexivity. Qed.

Lemma for_each_emitted {A S} (body : A -> S -> M S)
    (step : A -> S -> S) (out : A -> S -> list element) :
  (forall x acc d,
      body x acc (Some d) = (inr (step x acc), Some (extend d (out x acc)))) ->
  forall xs acc d,
    for_each xs body acc (Some d)
    = (inr (fold_left (fun a x => step x a) xs acc),
       Some (extend d (emitted step out xs acc))).
Proof.
  intros Hbody xs; induction xs as [|x xs IH]; intros acc d; simpl.
  - unfold ret; now rewrite extend_nil.
  - unfold bind; rewrite Hbody, IH, extend_extend; reflexivity.
Qed.

Lemma emitted_flat_map {A} (out : A -> list element) xs :
  emitted (fun _ (u : Datatypes.unit) => u) (fun x _ => out x) xs tt
  = flat_map out xs.
Proof. induction xs as [|x xs IH]; simpl; [reflexivity | now rewrite IH]. Qed.

Lemma for_each_flat_map {A} (body : A -> Datatypes.unit -> M Datatypes.unit)
    (out : A -> list element) :
  (forall x d, body x tt (Some d) = (inr tt, Some (extend d (out x)))) ->
  forall xs d,
    for_each xs body tt (Some d) = (inr tt, Some (extend d (flat_map out xs))).
Proof.
  intros Hbody xs d.
  rewrite (for_each_emitted body (fun _ u => u) (fun x _ => out x)).
  - rewrite emitted_flat_map. f_equal.
    induction xs; simpl; auto.
  - intros x [] d'; apply Hbody.
Qed.

Lemma flat_map_singleton {A B} (f : A -> B) xs :
  flat_map (fun x => [f x]) xs = map f xs.
Proof. induction xs; simpl; congruence. Qed.

Section Runs.

Variable self : GoBoard.

Lemma draw_multiple_lines_run start end_ (i : nat) d :
  (i < 2)%nat ->
  draw_multiple_lines self [VSeq start; VSeq end_; VNum (Int (Z.of_nat i))]
                      (Some d)
  = (inr tt, Some (extend d (strokes self start end_ i))).
Proof.
  intros Hi; unfold draw_multiple_lines, strokes.
  rewrite <- flat_map_singleton.
  apply for_each_flat_map; intros l d'.
  destruct i as [|[|i]]; [reflexivity | reflexivity | lia].
Qed.

Lemma draw_starpoint_run pos d :
  draw_starpoint self pos (Some d)
  = (inr tt, Some (extend d (star_circles self pos))).
Proof.
  unfold draw_starpoint, star_circles.
  rewrite <- flat_map_singleton.
  apply for_each_flat_map; reflexivity.
Qed.

End Runs.

Section BoardRuns.

Variable self : GoBoard.

Lemma length_range n : List.length (range n) = Z.to_nat n.
Proof. unfold range; now rewrite length_map, length_seq. Qed.

Lemma emitted_logical_lines (xs : list Z) start spacing line_length dl dc :
  emitted (fun (_ : Z) s => iadd_item s dc spacing)
          (fun (_ : Z) s => strokes self s (iadd_item s dl line_length) dc)
          xs start
  = flat_map (fun se => strokes self (fst se) (snd se) dc)
      (logical_lines (List.length xs) start spacing line_length dl dc).
Proof.
  revert start; induction xs as [|x xs IH]; intros start; simpl.
  - reflexivity.
  - now rewrite IH.
Qed.

Lemma lines_loop_run n start spacing line_length (dl dc : nat) d :
  (dc < 2)%nat ->
  exists final,
    for_each (range n)
      (fun (_ : Z) start =>
         bind (draw_multiple_lines self
                 [VSeq start; VSeq (iadd_item start dl line_length);
                  VNum (Int (Z.of_nat dc))])
              (fun _ => ret (iadd_item start dc spacing)))
      start (Some d)
    = (inr final,
       Some (extend d
          (flat_map (fun se => strokes self (fst se) (snd se) dc)
             (logical_lines (Z.to_nat n) start spacing line_length dl dc)))).
Proof.
  intros Hdc; eexists.
  rewrite (for_each_emitted _
             (fun (_ : Z) s => iadd_item s dc spacing)
             (fun (_ : Z) s => strokes self s (iadd_item s dl line_length) dc)).
  - now rewrite emitted_logical_lines, length_range.
  - intros x acc d'; unfold bind.
    now rewrite draw_multiple_lines_run.
Qed.

Lemma direction_locals_vertical :
  direction_locals self "vertical"
  = Some (lines_vertical self, spacing_vertical self,
          (spacing_horizontal self * Int (lines_horizontal self - 1))%num,
          0%nat, 1%nat).
Proof. reflexivity. Qed.

Lemma direction_locals_horizontal :
  direction_locals self "horizontal"
  = Some (lines_horizontal self, spacing_horizontal self,
          (spacing_vertical self * Int (lines_vertical self - 1))%num,
          1%nat, 0%nat).
Proof. reflexivity. Qed.

Lemma draw_lines_run start direction d :
  direction = "vertical" \/ direction = "horizontal" ->
  draw_lines self start direction (Some d)
  = (inr tt, Some (extend d (grid_strokes self start direction))).
Proof.
  intros [-> | ->];
    unfold draw_lines, grid_strokes, grid_lines, spread_axis;
    rewrite ?direction_locals_vertical, ?direction_locals_horizontal;
    unfold bind at 1.
  - destruct (lines_loop_run (lines_vertical self) start
                (spacing_vertical self)
                (spacing_horizontal self * Int (lines_horizontal self - 1))%num
                0 1 d) as [final ->]; [lia | reflexivity].
  - destruct (lines_loop_run (lines_horizontal self) start
                (spacing_horizontal self)
                (spacing_vertical self * Int (lines_vertical self - 1))%num
                1 0 d) as [final ->]; [lia | reflexivity].
Qed.

Lemma flat_map_filter_map {A B} (f : A -> B) (keep : B -> bool)
    (g : B -> list element) xs :
  flat_map (fun x => if keep (f x) then g (f x) else []) xs
  = flat_map g (filter keep (map f xs)).
Proof.
  induction xs as [|x xs IH]; simpl; [reflexivity|].
  rewrite IH; destruct (keep (f x)); reflexivity.
Qed.

Lemma star_elements_flat_map start :
  flat_map
    (fun p => if 0 <=? snd (shifted self p)
              then star_circles self (star_center self start (shifted self p))
              else [])
    (star_points self)
  = star_elements self start.
Proof.
  unfold star_elements, retained_star_points.
  apply (flat_map_filter_map (shifted self) (fun p => 0 <=? snd p)
           (fun p => star_circles self (star_center self start p))).
Qed.

Lemma draw_starpoints_run start d :
  draw_starpoints self start (Some d)
  = (inr tt, Some (extend d (star_elements self start))).
Proof.
  rewrite <- star_elements_flat_map.
  unfold draw_starpoints.
  apply for_each_flat_map; intros p d'.
  change (snd (fst p, snd p - (if half_board self
                               then lines_vertical self - 1 else 0)))
    with (snd (shifted self p)).
  destruct (0 <=? snd (shifted self p)).
  - apply draw_starpoint_run.
  - unfold ret; now rewrite extend_nil.
Qed.

Lemma draw_border_run d :
  border self = true ->
  draw_border self (Some d)
  = (inr tt, Some (extend d (border_elements self))).
Proof.
  intros Hb; unfold draw_border, border_elements, border_rect, top_cut.
  rewrite Hb; unfold bind, add_element.
  destruct (half_board self); rewrite !add_extend, ?extend_extend;
    reflexivity.
Qed.

(** [draw] never raises: whatever [self.drawing] was, it is afterwards a
    new drawing of the board's size holding [board_elements]. *)
Lemma draw_run s0 :
  draw self s0
  = (inr tt,
     Some (extend (new_drawing (width self) (height self) (unit self))
                  (board_elements self))).
Proof.
  unfold draw, board_elements.
  unfold bind at 1, set_drawing.
  unfold bind at 1.
  assert (Hb : forall d,
             (if border self then draw_border self else ret tt) (Some d)
             = (inr tt, Some (extend d (border_elements self)))).
  { intros d; destruct (border self) eqn:Hb.
    - now apply draw_border_run.
    - unfold border_elements; rewrite Hb; unfold ret; now rewrite extend_nil. }
  rewrite Hb; fold (grid_start self).
  unfold bind.
  rewrite draw_lines_run by auto.
  rewrite draw_lines_run by auto.
  rewrite draw_starpoints_run.
  now rewrite !extend_extend.
Qed.

End BoardRuns.

(** ** Lines, circles and rectangles among the elements of a board *)

Lemma filter_flat_map {A} (p : element -> bool) (f : A -> list element) xs :
  filter p (flat_map f xs) = flat_map (fun x => filter p (f x)) xs.
Proof.
  induction xs as [|x xs IH]; simpl; [reflexivity|].
  now rewrite filter_app, IH.
Qed.

Lemma flat_map_nil {A} (xs : list A) :
  flat_map (fun _ => @nil element) xs = [].
Proof. induction xs; simpl; auto. Qed.

Lemma length_flat_map_const {A} (f : A -> list element) (k : nat) xs :
  (forall x, List.length (f x) = k) ->
  List.length (flat_map f xs) = (k * List.length xs)%nat.
Proof.
  intros Hk; induction xs as [|x xs IH]; simpl; [lia|].
  rewrite length_app, Hk, IH; lia.
Qed.

Lemma filter_map_all {A} (p : element -> bool) (f : A -> element) xs :
  (forall x, p (f x) = true) -> filter p (map f xs) = map f xs.
Proof.
  intros Hp; induction xs as [|x xs IH]; simpl; [reflexivity|].
  now rewrite Hp, IH.
Qed.

Lemma filter_map_none {A} (p : element -> bool) (f : A -> element) xs :
  (forall x, p (f x) = false) -> filter p (map f xs) = [].
Proof.
  intros Hp; induction xs as [|x xs IH]; simpl; [reflexivity|].
  now rewrite Hp, IH.
Qed.

Section Kinds.

Variable self : GoBoard.

Lemma length_strokes s e i :
  List.length (strokes self s e i) = Z.to_nat (multiple_lines self).
Proof. unfold strokes; now rewrite length_map, length_range. Qed.

Lemma length_star_circles pos :
  List.length (star_circles self pos) = Z.to_nat (multiple_lines self).
Proof. unfold star_circles; now rewrite length_map, length_range. Qed.

Lemma length_logical_lines n start spacing ll dl dc :
  List.length (logical_lines n start spacing ll dl dc) = n.
Proof.
  revert start; induction n as [|n IH]; intros start; simpl;
    [reflexivity | now rewrite IH].
Qed.

Lemma length_grid_lines_vertical start :
  List.length (grid_lines self start "vertical")
  = Z.to_nat (lines_vertical self).
Proof.
  unfold grid_lines; rewrite direction_locals_vertical.
  apply length_logical_lines.
Qed.

Lemma length_grid_lines_horizontal start :
  List.length (grid_lines self start "horizontal")
  = Z.to_nat (lines_horizontal self).
Proof.
  unfold grid_lines; rewrite direction_locals_horizontal.
  apply length_logical_lines.
Qed.

Lemma lines_of_grid_strokes start direction :
  filter is_line (grid_strokes self start direction)
  = grid_strokes self start direction.
Proof.
  unfold grid_strokes; rewrite filter_flat_map.
  apply flat_map_ext; intros se.
  now apply filter_map_all.
Qed.

Lemma circles_of_grid_strokes start direction :
  filter is_circle (grid_strokes self start direction) = [].
Proof.
  unfold grid_strokes; rewrite filter_flat_map.
  erewrite flat_map_ext; [apply flat_map_nil|].
  intros se; now apply filter_map_none.
Qed.

Lemma rects_of_grid_strokes start direction :
  filter is_rect (grid_strokes self start direction) = [].
Proof.
  unfold grid_strokes; rewrite filter_flat_map.
  erewrite flat_map_ext; [apply flat_map_nil|].
  intros se; now apply filter_map_none.
Qed.

Lemma lines_of_star_elements start :
  filter is_line (star_elements self start) = [].
Proof.
  unfold star_elements; rewrite filter_flat_map.
  erewrite flat_map_ext; [apply flat_map_nil|].
  intros p; now apply filter_map_none.
Qed.

Lemma circles_of_star_elements start :
  filter is_circle (star_elements self start) = star_elements self start.
Proof.
  unfold star_elements; rewrite filter_flat_map.
  apply flat_map_ext; intros p.
  now apply filter_map_all.
Qed.

Lemma rects_of_star_elements start :
  filter is_rect (star_elements self start) = [].
Proof.
  unfold star_elements; rewrite filter_flat_map.
  erewrite flat_map_ext; [apply flat_map_nil|].
  intros p; now apply filter_map_none.
Qed.

(** The line elements of a board: the cut of a bordered half board, then
    the strokes of the grid. *)
Lemma lines_of_board :
  filter is_line (board_elements self)
  = (if border self && half_board self then [top_cut self] else [])
    ++ grid_strokes self (grid_start self) "vertical"
    ++ grid_strokes self (grid_start self) "horizontal".
Proof.
  unfold board_elements.
  rewrite !filter_app, !lines_of_grid_strokes, lines_of_star_elements,
    app_nil_r.
  f_equal.
  unfold border_elements.
  destruct (border self), (half_board self); reflexivity.
Qed.

(** The circle elements of a board: those of its star points. *)
Lemma circles_of_board :
  filter is_circle (board_elements self)
  = star_elements self (grid_start self).
Proof.
  unfold board_elements.
  rewrite !filter_app, !circles_of_grid_strokes, circles_of_star_elements.
  unfold border_elements.
  destruct (border self), (half_board self); reflexivity.
Qed.

Lemma length_grid_strokes start direction :
  List.length (grid_strokes self start direction)
  = (Z.to_nat (multiple_lines self)
     * List.length (grid_lines self start direction))%nat.
Proof.
  unfold grid_strokes; apply length_flat_map_const.
  intros se; apply length_strokes.
Qed.

Lemma length_star_elements start :
  List.length (star_elements self start)
  = (Z.to_nat (multiple_lines self)
     * List.length (retained_star_points self))%nat.
Proof.
  unfold star_elements; apply length_flat_map_const.
  intros p; apply length_star_circles.
Qed.

End Kinds.

(** The four sizes of [sizeOptions]. *)
Lemma sizeOptions_lookup key s :
  lookup key sizeOptions = Some s ->
  In s (map snd sizeOptions).
Proof.
  unfold sizeOptions; simpl.
  repeat (destruct (String.eqb key _);
          [intros [= <-]; simpl; tauto|]).
  discriminate.
Qed.

Lemma sizeOptions_lines key s :
  lookup key sizeOptions = Some s ->
  size_lines_horizontal s = size_lines_vertical s
  /\ In (size_lines_vertical s) [7; 9; 13; 19].
Proof.
  intros H; apply sizeOptions_lookup in H; simpl in H.
  destruct H as [<- | [<- | [<- | [<- | []]]]]; simpl; tauto.
Qed.

(** ** Arithmetic of Python numbers *)

Lemma SFmul_comm x y : SFmul prec emax x y = SFmul prec emax y x.
Proof.
  destruct x as [sx|sx| |sx mx ex], y as [sy|sy| |sy my ey]; simpl;
    try reflexivity; try (now rewrite (xorb_comm sx sy)).
  now rewrite (xorb_comm sx sy), (Pos.mul_comm mx my), (Z.add_comm ex ey).
Qed.

Lemma float_mul_comm (x y : float) : (x * y)%float = (y * x)%float.
Proof.
  apply Prim2SF_inj; rewrite !mul_spec; apply SFmul_comm.
Qed.

Lemma mul_comm (a b : num) : (a * b)%num = (b * a)%num.
Proof.
  destruct a as [x|f], b as [y|g]; simpl; f_equal;
    solve [lia | apply float_mul_comm].
Qed.

(** ** The board's dimensions *)

Lemma GoBoard_init_width o self :
  GoBoard_init o = inr self ->
  width self
  = (Int (lines_horizontal o - 1) * spacing_horizontal o
     + linewidth o + margin o * Int 2)%num.
Proof.
  unfold GoBoard_init; intros H.
  destruct (half_board o); [destruct (lines_vertical o mod 2 =? 0)|];
    inversion H; reflexivity.
Qed.

Lemma GoBoard_init_full o :
  half_board o = false ->
  GoBoard_init o
  = inr (mkGoBoard o
           (Int (lines_horizontal o - 1) * spacing_horizontal o
            + linewidth o + margin o * Int 2)%num
           (Int (lines_vertical o - 1) * spacing_vertical o
            + linewidth o + margin o * Int 2)%num).
Proof. unfold GoBoard_init; intros ->; reflexivity. Qed.

Lemma odd_mod_2 z : Z.odd z = true -> (z mod 2 =? 0) = false.
Proof.
  intros H; rewrite <- Zeven_mod, <- Z.negb_odd, H; reflexivity.
Qed.

Lemma even_mod_2 z : Z.even z = true -> (z mod 2 =? 0) = true.
Proof. intros H; now rewrite <- Zeven_mod. Qed.

(** C1. For each of the four sizes of [sizeOptions] and at least one stroke
    per line, drawing the full board succeeds, its line elements are the
    strokes of [lines_horizontal + lines_vertical] logical lines (those
    [draw_lines] hands to [draw_multiple_lines], no cut line among them),
    and there are [multiple_lines * (lines_horizontal + lines_vertical)]
    of them. *)
Theorem full_board_line_count (key : string) (s : SizeOption) (o : Options) :
  lookup key sizeOptions = Some s ->
  lines_horizontal o = size_lines_horizontal s ->
  lines_vertical o = size_lines_vertical s ->
  half_board o = false ->
  1 <= multiple_lines o ->
  exists self,
    GoBoard_init o = inr self /\
    forall s0, exists d,
      draw self s0 = (inr tt, Some d) /\
      filter is_line (elements d)
      = flat_map (fun se => strokes self (fst se) (snd se) 1)
          (grid_lines self (grid_start self) "vertical")
        ++ flat_map (fun se => strokes self (fst se) (snd se) 0)
             (grid_lines self (grid_start self) "horizontal") /\
      len (grid_lines self (grid_start self) "vertical"
           ++ grid_lines self (grid_start self) "horizontal")
      = lines_horizontal o + lines_vertical o /\
      count is_line (elements d)
      = multiple_lines o * (lines_horizontal o + lines_vertical o).
Proof.
  intros Hkey Hh Hv Hfull Hml.
  destruct (sizeOptions_lines key s Hkey) as [Hsq Hin].
  assert (Hlv : 0 <= lines_vertical o)
    by (rewrite Hv; simpl in Hin; lia).
  assert (Hlh : 0 <= lines_horizontal o)
    by (rewrite Hh, Hsq; simpl in Hin; lia).
  eexists; split; [apply GoBoard_init_full, Hfull|].
  set (self := mkGoBoard o _ _).
  intros s0; eexists; split; [apply draw_run|].
  unfold count; rewrite elements_extend; simpl elements; simpl app.
  rewrite lines_of_board.
  replace (border self && half_board self) with false
    by (change (half_board self) with (half_board o);
        rewrite Hfull; now destruct (border self)).
  simpl app.
  split; [reflexivity|].
  unfold len.
  rewrite !length_app, !length_grid_strokes,
    length_grid_lines_vertical, length_grid_lines_horizontal.
  change (lines_vertical self) with (lines_vertical o).
  change (lines_horizontal self) with (lines_horizontal o).
  change (multiple_lines self) with (multiple_lines o).
  split; nia.
Qed.

Lemma full_board_line_count_witness :
  exists self,
    GoBoard_init (DefaultOptions size13 false) = inr self /\
    forall s0, exists d,
      draw self s0 = (inr tt, Some d) /\
      count is_line (elements d) = 52.
Proof.
  destruct (full_board_line_count "13" size13 (DefaultOptions size13 false))
    as (self & Hinit & Hdraw);
    [reflexivity | reflexivity | reflexivity | reflexivity | simpl; lia |].
  exists self; split; [exact Hinit|].
  intros s0; destruct (Hdraw s0) as (d & Hd & _ & _ & Hcount).
  exists d; split; [exact Hd | exact Hcount].
Defined.

(** C2. The width of a board is
    [(lines_horizontal - 1) * spacing_horizontal + linewidth + 2 * margin];
    with 13 lines, spacing 22, margin 15 and line width 0.15 it is the
    float 294.15. *)
Theorem board_width (o : Options) (self : GoBoard) :
  GoBoard_init o = inr self ->
  width self
  = (Int (lines_horizontal o - 1) * spacing_horizontal o
     + linewidth o + Int 2 * margin o)%num
  /\ (lines_horizontal o = 13 -> spacing_horizontal o = Int 22 ->
      margin o = Int 15 -> linewidth o = Float 0.15 ->
      width self = Float 294.15).
Proof.
  intros H; apply GoBoard_init_width in H; rewrite H.
  split.
  - now rewrite (mul_comm (margin o)).
  - intros -> -> -> ->; reflexivity.
Qed.

Lemma board_width_witness :
  exists self,
    GoBoard_init (DefaultOptions size13 false) = inr self /\
    width self = Float 294.15.
Proof.
  destruct (GoBoard_init (DefaultOptions size13 false)) as [e|self] eqn:E;
    [discriminate E|].
  exists self; split; [reflexivity|].
  apply (board_width (DefaultOptions size13 false) self E); reflexivity.
Defined.

(** C3. A half board with an odd number of vertical lines keeps
    [(lines_vertical + 1) / 2] of them (floor division; 7 of 13) and its
    height has one margin; a full board keeps all and has two margins. *)
Theorem half_board_height (o : Options) :
  half_board o = false \/ Z.odd (lines_vertical o) = true ->
  exists self,
    GoBoard_init o = inr self /\
    if half_board o then
      lines_vertical self = (lines_vertical o + 1) / 2
      /\ (lines_vertical o = 13 -> lines_vertical self = 7)
      /\ height self
         = (Int (lines_vertical self - 1) * spacing_vertical o
            + linewidth o + margin o)%num
    else
      lines_vertical self = lines_vertical o
      /\ height self
         = (Int (lines_vertical o - 1) * spacing_vertical o
            + linewidth o + Int 2 * margin o)%num.
Proof.
  intros H; unfold GoBoard_init.
  destruct (half_board o).
  - destruct H as [H|H]; [discriminate H|].
    rewrite (odd_mod_2 _ H).
    eexists; split; [reflexivity|]; simpl.
    repeat split.
    intros ->; reflexivity.
  - eexists; split; [reflexivity|]; simpl.
    now rewrite (mul_comm (margin o)).
Qed.

Lemma half_board_height_witness :
  exists self,
    GoBoard_init (DefaultOptions size13 true) = inr self /\
    lines_vertical self = 7 /\
    height self = (Int 6 * Float 23.7 + Float 0.15 + Int 15)%num.
Proof.
  destruct (half_board_height (DefaultOptions size13 true))
    as (self & Hinit & Hlv & H13 & Hh); [right; reflexivity|].
  exists self; split; [exact Hinit|].
  split; [apply H13; reflexivity|].
  rewrite Hh, (H13 eq_refl); reflexivity.
Defined.

(** C4. With [half_board] set and an even number of vertical lines
    [GoBoard.__init__] raises (the exception class is [Exception]): no
    board exists, and a run of [main] ends with that exception and no
    drawing at all. *)
Theorem half_board_even_fails (o : Options) :
  half_board o = true ->
  Z.even (lines_vertical o) = true ->
  GoBoard_init o = inl half_board_error
  /\ forall s test no_border rc,
       lines_vertical o = size_lines_vertical s ->
       main s true test no_border rc = (inl half_board_error, None).
Proof.
  intros Hhalf Heven; split.
  - unfold GoBoard_init; now rewrite Hhalf, (even_mod_2 _ Heven).
  - intros s test no_border rc Hs.
    unfold main, GoBoard_init; simpl.
    now rewrite <- Hs, (even_mod_2 _ Heven).
Qed.

Lemma half_board_even_fails_witness :
  GoBoard_init (DefaultOptions size8 true) = inl half_board_error
  /\ main size8 true false false 10 = (inl half_board_error, None).
Proof.
  destruct (half_board_even_fails (DefaultOptions size8 true))
    as [Hinit Hmain]; [reflexivity | reflexivity |].
  split; [exact Hinit | apply Hmain; reflexivity].
Defined.

Lemma board13_init : GoBoard_init (DefaultOptions size13 false) = inr board13.
Proof. reflexivity. Qed.

Lemma half_board13_init :
  GoBoard_init (DefaultOptions size13 true) = inr half_board13.
Proof. reflexivity. Qed.

(** ** Strokes of a line *)

Lemma nth_error_range n l :
  0 <= l < n -> nth_error (range n) (Z.to_nat l) = Some l.
Proof.
  intros Hl; unfold range.
  rewrite nth_error_map.
  rewrite (nth_error_nth' _ 0%nat) by (rewrite length_seq; lia).
  rewrite seq_nth by lia; simpl; f_equal; lia.
Qed.

(** C5. Stroke [l] of a logical line is the line moved by
    [(l - multiple_lines / 2.) * multiple_lines_spacing] along the axis
    [dir_count], the other coordinate unchanged; [draw_lines] spreads along
    the axis the line does not run along.  With two strokes 0.25 apart the
    offsets are -0.25 and 0.0, not -0.125 and 0.125. *)
Theorem stroke_offsets (self : GoBoard) (start end_ : point) (i : nat)
    (d : Drawing) (l : Z) :
  (i < 2)%nat ->
  0 <= l < multiple_lines self ->
  let offset :=
    ((Int l - Float (float_of_Z (multiple_lines self) / 2))
     * multiple_lines_spacing self)%num in
  exists d',
    draw_multiple_lines self
      [VSeq start; VSeq end_; VNum (Int (Z.of_nat i))] (Some d)
    = (inr tt, Some d') /\
    nth_error (elements d') (List.length (elements d) + Z.to_nat l)
    = Some (Line (iadd_item start i offset) (iadd_item end_ i offset)
                 (mark_stroke (colors self)) (linewidth self)) /\
    getitem (iadd_item start i offset) i = (getitem start i + offset)%num /\
    getitem (iadd_item start i offset) (1 - i) = getitem start (1 - i) /\
    (forall direction line_count spacing line_length dir_line dir_count,
        direction_locals self direction
        = Some (line_count, spacing, line_length, dir_line, dir_count) ->
        (dir_count < 2)%nat /\ dir_line = (1 - dir_count)%nat) /\
    (multiple_lines self = 2 -> multiple_lines_spacing self = Float 0.25 ->
     offset = (if l =? 0 then Float (-0.25) else Float 0)
     /\ offset <> Float (-0.125) /\ offset <> Float 0.125).
Proof.
  intros Hi Hl offset.
  eexists; split; [now apply draw_multiple_lines_run|].
  split; [|split; [|split; [|split]]].
  - rewrite elements_extend, nth_error_app2 by lia.
    replace (_ + _ - _)%nat with (Z.to_nat l) by lia.
    unfold strokes; rewrite nth_error_map, nth_error_range by lia.
    reflexivity.
  - destruct i as [|[|i]]; [reflexivity | reflexivity | lia].
  - destruct i as [|[|i]]; [reflexivity | reflexivity | lia].
  - intros direction lc sp ll dl dc; unfold direction_locals.
    destruct (String.eqb direction "vertical");
      [|destruct (String.eqb direction "horizontal")];
      intros [= <- <- <- <- <-] || discriminate; split; (lia || reflexivity).
  - intros Hml Hsp; subst offset.
    rewrite Hml, Hsp in *.
    assert (Hcases : l = 0 \/ l = 1) by lia.
    destruct Hcases as [-> | ->]; (split; [reflexivity|]);
      split; intros [= H]; discriminate H.
Qed.

Lemma stroke_offsets_witness :
  exists d',
    draw_multiple_lines board13
      [VSeq (Int 15, Int 15); VSeq (Int 279, Int 15); VNum (Int 1)]
      (Some (new_drawing (Int 0) (Int 0) "mm"))
    = (inr tt, Some d') /\
    nth_error (elements d') 0
    = Some (Line (Int 15, Float 14.75) (Int 279, Float 14.75)
                 "red" (Float 0.15)).
Proof.
  destruct (stroke_offsets board13 (Int 15, Int 15) (Int 279, Int 15) 1
              (new_drawing (Int 0) (Int 0) "mm") 0)
    as (d' & Hrun & Hnth & _); [lia | simpl; lia |].
  exists d'; split; [exact Hrun | exact Hnth].
Defined.

(** ** Star points *)

(** C6. The circles of a drawn board are those of its star points, in
    order: a star point [(gx, gy)] is moved up by [lines_vertical - 1] (the
    halved count) on a half board and by nothing on a full board, dropped
    without an error when its row is then negative, and otherwise centred at
    [(origin_x + gx * spacing_horizontal - multiple_lines_spacing / 2,
      origin_y + gy * spacing_vertical - multiple_lines_spacing / 2)].  On
    the half board of size 13 the offset is 6: (3, 3) and (9, 3) fall to
    row -3 and are dropped, (6, 6) goes to row 0 and is kept. *)
Theorem star_point_centers (self : GoBoard) (s0 : option Drawing) :
  let origin :=
    if half_board self then (margin self, Int 0)
    else (margin self, margin self) in
  let offset := if half_board self then lines_vertical self - 1 else 0 in
  let center (p : Z * Z) :=
    ((fst origin + Int (fst p) * spacing_horizontal self
      - div_2 (multiple_lines_spacing self))%num,
     (snd origin + Int (snd p) * spacing_vertical self
      - div_2 (multiple_lines_spacing self))%num) in
  (exists d,
      draw self s0 = (inr tt, Some d) /\
      filter is_circle (elements d)
      = flat_map (fun p => star_circles self (center p))
          (filter (fun p => 0 <=? snd p)
             (map (fun p => (fst p, snd p - offset)) (star_points self))))
  /\ (exists h d,
         GoBoard_init (DefaultOptions size13 true) = inr h /\
         lines_vertical h - 1 = 6 /\
         map (fun p => (fst p, snd p - 6)) (star_points h)
         = [(3, -3); (9, -3); (6, 0); (3, 3); (9, 3)] /\
         draw h s0 = (inr tt, Some d) /\
         filter is_circle (elements d)
         = star_circles h (Float 146.875, Float (-0.125))
           ++ star_circles h (Float 80.875, Float (3 * 23.7 - 0.125))
           ++ star_circles h (Float 212.875, Float (3 * 23.7 - 0.125))).
Proof.
  intros origin offset center; split.
  - eexists; split; [apply draw_run|].
    rewrite elements_extend; simpl elements; simpl app.
    apply circles_of_board.
  - exists half_board13; eexists.
    split; [reflexivity|].
    split; [reflexivity|].
    split; [reflexivity|].
    split; [apply draw_run|].
    rewrite elements_extend; simpl elements; simpl app.
    rewrite circles_of_board.
    unfold star_elements.
    change (retained_star_points half_board13) with [(6, 0); (3, 3); (9, 3)].
    reflexivity.
Qed.

(** C7. [draw_starpoint] appends [multiple_lines] circles, all centred at
    the star point; circle [l] has radius half of
    [star_diameter + (l - multiple_lines) * multiple_lines_spacing].  A drawn
    board holds [multiple_lines] circles for each retained star point. *)
Theorem star_point_circles (self : GoBoard) (pos : point) (d : Drawing) :
  1 <= multiple_lines self ->
  (exists d',
      draw_starpoint self pos (Some d) = (inr tt, Some d') /\
      elements d'
      = elements d
        ++ map (fun l =>
                  Circle pos
                    (div_2 (star_diameter self
                            + (Int l - Int (multiple_lines self))
                              * multiple_lines_spacing self)%num)
                    "none" (mark_stroke (colors self)) (linewidth self))
               (range (multiple_lines self)) /\
      len (elements d') = len (elements d) + multiple_lines self /\
      forall l, 0 <= l < multiple_lines self ->
        nth_error (elements d') (List.length (elements d) + Z.to_nat l)
        = Some (Circle pos
                  (div_2 (star_diameter self
                          + (Int l - Int (multiple_lines self))
                            * multiple_lines_spacing self)%num)
                  "none" (mark_stroke (colors self)) (linewidth self)))
  /\ (forall s0, exists b,
         draw self s0 = (inr tt, Some b) /\
         count is_circle (elements b)
         = multiple_lines self * len (retained_star_points self)).
Proof.
  intros Hml; split.
  - eexists; split; [apply draw_starpoint_run|].
    rewrite elements_extend.
    split; [reflexivity|].
    split.
    + unfold len; rewrite length_app, length_star_circles; lia.
    + intros l Hl.
      rewrite nth_error_app2 by lia.
      replace (_ + _ - _)%nat with (Z.to_nat l) by lia.
      unfold star_circles; rewrite nth_error_map, nth_error_range by lia.
      reflexivity.
  - intros s0; eexists; split; [apply draw_run|].
    unfold count; rewrite elements_extend; simpl elements; simpl app.
    rewrite circles_of_board.
    unfold len; rewrite length_star_elements; lia.
Qed.

Lemma star_point_circles_witness :
  exists d',
    draw_starpoint board13 (Float 80.875, Float 80.875)
      (Some (new_drawing (Int 0) (Int 0) "mm"))
    = (inr tt, Some d') /\
    elements d'
    = [ Circle (Float 80.875, Float 80.875) (Float 1.75)
               "none" "red" (Float 0.15);
        Circle (Float 80.875, Float 80.875) (Float 1.875)
               "none" "red" (Float 0.15) ].
Proof.
  destruct (star_point_circles board13 (Float 80.875, Float 80.875)
              (new_drawing (Int 0) (Int 0) "mm"))
    as [(d' & Hrun & Hel & _) _]; [simpl; lia|].
  exists d'; split; [exact Hrun | exact Hel].
Defined.

(** ** The border of a half board *)

Lemma GoBoard_init_attrs o self :
  GoBoard_init o = inr self ->
  border self = border o /\ half_board self = half_board o
  /\ rounded_corners self = rounded_corners o
  /\ linewidth self = linewidth o /\ colors self = colors o
  /\ multiple_lines self = multiple_lines o
  /\ star_points self = star_points o
  /\ (half_board o = false -> attrs self = o).
Proof.
  unfold GoBoard_init; intros H.
  destruct (half_board o) eqn:Hh;
    [destruct (lines_vertical o mod 2 =? 0)|];
    inversion H; subst; simpl; repeat split; auto; discriminate.
Qed.

(** C9. A bordered half board starts with the whole rounded rectangle,
    placed [rounded_corners] above the top edge and that much higher than
    the board less the line width, then the cut line from (0, 0) to
    (width, 0); it holds no other rectangle. *)
Theorem half_board_border (o : Options) (self : GoBoard)
    (s0 : option Drawing) :
  GoBoard_init o = inr self ->
  half_board o = true ->
  border o = true ->
  exists d rest,
    draw self s0 = (inr tt, Some d) /\
    elements d
    = Rect (Some (Int 0, (- rounded_corners o)%num))
           ((width self - linewidth o)%num,
            (height self - linewidth o + rounded_corners o)%num)
           (cut_stroke (colors o)) (linewidth o) (background (colors o))
           (rounded_corners o) (rounded_corners o)
      :: Line (Int 0, Int 0) (width self, Int 0)
              (cut_stroke (colors o)) (linewidth o)
      :: rest /\
    filter is_rect rest = [].
Proof.
  intros Hinit Hhalf Hborder.
  destruct (GoBoard_init_attrs o self Hinit)
    as (Hb & Hh & Hrc & Hlw & Hc & _).
  rewrite Hhalf in Hh; rewrite Hborder in Hb.
  eexists; eexists; split; [apply draw_run|].
  rewrite elements_extend; simpl elements; simpl app.
  unfold board_elements, border_elements, border_rect, top_cut.
  rewrite Hb, Hh, Hrc, Hlw, Hc; simpl app.
  split; [reflexivity|].
  now rewrite !filter_app, !rects_of_grid_strokes, rects_of_star_elements.
Qed.

Lemma half_board_border_witness :
  exists d rest,
    draw half_board13 None = (inr tt, Some d) /\
    elements d
    = Rect (Some (Int 0, Int (-10)))
           (Float (294.15 - 0.15),
            Float (6 * 23.7 + 0.15 + 15 - 0.15 + 10))
           "black" (Float 0.15) "white" (Int 10) (Int 10)
      :: Line (Int 0, Int 0) (Float 294.15, Int 0) "black" (Float 0.15)
      :: rest.
Proof.
  destruct (half_board_border (DefaultOptions size13 true) half_board13 None)
    as (d & rest & Hrun & Hel & _);
    [reflexivity | reflexivity | reflexivity |].
  exists d, rest; split; [exact Hrun | exact Hel].
Defined.

(** ** Star points of a full board *)

Lemma sizeOptions_star_points key s :
  lookup key sizeOptions = Some s ->
  Forall (fun p => 0 <= snd p) (size_star_points s).
Proof.
  intros H; apply sizeOptions_lookup in H; simpl in H.
  destruct H as [<- | [<- | [<- | [<- | []]]]]; simpl;
    repeat constructor; simpl; lia.
Qed.

Lemma retained_all (self : GoBoard) :
  half_board self = false ->
  Forall (fun p => 0 <= snd p) (star_points self) ->
  retained_star_points self = star_points self.
Proof.
  intros Hfull Hall.
  unfold retained_star_points, shifted, vert_pos_offset; rewrite Hfull.
  induction Hall as [|p ps Hp _ IH]; simpl; [reflexivity|].
  rewrite Z.sub_0_r.
  destruct (Z.leb_spec 0 (snd p)); [|lia].
  rewrite IH; now destruct p.
Qed.

Lemma star_elements_Forall (self : GoBoard) start :
  Forall (fun e => exists center r,
              e = Circle center r "none"
                         (mark_stroke (colors self)) (linewidth self))
         (star_elements self start).
Proof.
  unfold star_elements.
  apply Forall_flat_map, Forall_forall; intros p _.
  unfold star_circles; apply Forall_map, Forall_forall; intros l _.
  unfold star_circle; eauto.
Qed.

(** C10. On a full board of one of the four sizes the vertical offset is 0
    and no star point has a negative row, so none is dropped: the drawing
    holds [multiple_lines] circles for each configured star point, each
    with fill none and the colour [mark_stroke]. *)
Theorem full_board_star_points (key : string) (s : SizeOption)
    (o : Options) (s0 : option Drawing) :
  lookup key sizeOptions = Some s ->
  star_points o = size_star_points s ->
  half_board o = false ->
  1 <= multiple_lines o ->
  exists self d,
    GoBoard_init o = inr self /\
    draw self s0 = (inr tt, Some d) /\
    (if half_board self then lines_vertical self - 1 else 0) = 0 /\
    Forall (fun p => 0 <= snd p) (star_points o) /\
    filter is_circle (elements d)
    = flat_map (fun p => star_circles self (star_center self (grid_start self) p))
               (star_points o) /\
    count is_circle (elements d) = multiple_lines o * len (star_points o) /\
    Forall (fun e => exists center r,
                e = Circle center r "none"
                           (mark_stroke (colors o)) (linewidth o))
           (filter is_circle (elements d)).
Proof.
  intros Hkey Hstars Hfull Hml.
  pose proof (sizeOptions_star_points key s Hkey) as Hall.
  rewrite <- Hstars in Hall.
  exists (mkGoBoard o
            (Int (lines_horizontal o - 1) * spacing_horizontal o
             + linewidth o + margin o * Int 2)%num
            (Int (lines_vertical o - 1) * spacing_vertical o
             + linewidth o + margin o * Int 2)%num).
  set (self := mkGoBoard o _ _).
  eexists; split; [apply GoBoard_init_full, Hfull|].
  split; [apply draw_run|].
  assert (Hret : retained_star_points self = star_points o)
    by (apply retained_all; [exact Hfull | exact Hall]).
  unfold count; rewrite elements_extend; simpl elements; simpl app.
  rewrite circles_of_board.
  split; [change (half_board self) with (half_board o); now rewrite Hfull|].
  split; [exact Hall|].
  split; [unfold star_elements; now rewrite Hret|].
  split.
  - unfold len; rewrite length_star_elements, Hret.
    change (multiple_lines self) with (multiple_lines o); lia.
  - apply (star_elements_Forall self).
Qed.

Lemma full_board_star_points_witness :
  exists self d,
    GoBoard_init (DefaultOptions size13 false) = inr self /\
    draw self None = (inr tt, Some d) /\
    count is_circle (elements d) = 10.
Proof.
  destruct (full_board_star_points "13" size13 (DefaultOptions size13 false)
              None)
    as (self & d & Hinit & Hrun & _ & _ & _ & Hcount & _);
    [reflexivity | reflexivity | reflexivity | simpl; lia |].
  exists self, d; split; [exact Hinit|].
  split; [exact Hrun | exact Hcount].
Defined.

(** ** The test piece *)

(** [draw_test] makes its canvas and border, then raises at the first row:
    it hands five arguments to [draw_multiple_lines], which takes three. *)
Lemma draw_test_run (self : GoBoard) (s0 : option Drawing) :
  draw_test self s0
  = (inl (TypeError "draw_multiple_lines() takes exactly 4 arguments"),
     Some (mkDrawing (Int 30) (Int 120) (unit self)
             [ Rect None (Int 30, Int 120)
                    (cut_stroke (colors self)) (linewidth self)
                    (background (colors self))
                    (rounded_corners self) (rounded_corners self) ])).
Proof. reflexivity. Qed.

(** C8, as stated, fails at the default board of size 13: the test piece
    ends with a TypeError and a drawing that holds the border alone, no
    swatch row; and a board with the same unit and colours and another
    corner radius gives another drawing. *)
Lemma draw_test_no_rows :
  draw_test board13 None
  = (inl (TypeError "draw_multiple_lines() takes exactly 4 arguments"),
     Some (mkDrawing (Int 30) (Int 120) "mm"
             [ Rect None (Int 30, Int 120)
                    "black" (Float 0.15) "white" (Int 10) (Int 10) ]))
  /\ (exists b : GoBoard,
         unit b = unit board13 /\ colors b = colors board13 /\
         rounded_corners b = Int 0 /\
         snd (draw_test b None) <> snd (draw_test board13 None)).
Proof.
  split; [reflexivity|].
  exists (mkGoBoard (main_options size13 false false 0)
                    (width board13) (height board13)).
  repeat split.
  rewrite !draw_test_run; simpl; intros H; discriminate H.
Qed.

(** C8, amended.  The test piece reads only the unit, the colours, the line
    width and the corner radius of the board.  Its sweep is the ten fixed
    (count, spacing) pairs, and whatever the board its canvas is
    10 + 2 * 10 = 30 wide and 10 * 10 + 2 * 10 = 120 high, in the board's
    unit, and starts with a rounded rectangle of that size. *)
Theorem calibration_sheet (self1 self2 : GoBoard) (s0 : option Drawing) :
  unit self1 = unit self2 ->
  colors self1 = colors self2 ->
  linewidth self1 = linewidth self2 ->
  rounded_corners self1 = rounded_corners self2 ->
  draw_test self1 s0 = draw_test self2 s0
  /\ test_lines
     = [ (2, Float 0.1); (2, Float 0.2); (2, Float 0.3); (2, Float 0.4);
         (2, Float 0.5);
         (3, Float 0.1); (3, Float 0.2); (3, Float 0.3); (3, Float 0.4);
         (3, Float 0.5) ]
  /\ len test_lines = 10
  /\ exists r d,
       draw_test self1 s0 = (r, Some d) /\
       canvas_width d = (Int 10 + Int 2 * Int 10)%num /\
       canvas_height d = (Int (len test_lines) * Int 10 + Int 10 * Int 2)%num /\
       canvas_width d = Int 30 /\
       canvas_height d = Int 120 /\
       canvas_unit d = unit self1 /\
       hd_error (elements d)
       = Some (Rect None (Int 30, Int 120)
                    (cut_stroke (colors self1)) (linewidth self1)
                    (background (colors self1))
                    (rounded_corners self1) (rounded_corners self1)).
Proof.
  intros Hu Hc Hlw Hrc.
  split; [rewrite !draw_test_run, Hu, Hc, Hlw, Hrc; reflexivity|].
  split; [reflexivity|].
  split; [reflexivity|].
  rewrite draw_test_run.
  eexists; eexists; split; [reflexivity|].
  repeat split.
Qed.

Lemma calibration_sheet_witness :
  draw_test board13 None = draw_test half_board13 None
  /\ exists r d,
       draw_test board13 None = (r, Some d) /\
       canvas_width d = Int 30 /\ canvas_height d = Int 120.
Proof.
  destruct (calibration_sheet board13 half_board13 None)
    as (Hsame & _ & _ & r & d & Hrun & _ & _ & Hw & Hh & _);
    [reflexivity | reflexivity | reflexivity | reflexivity |].
  split; [exact Hsame|].
  exists r, d; split; [exact Hrun|]; split; [exact Hw | exact Hh].
Defined.

(** * Further properties of the methods *)

(** ** Errors *)

Lemma range_cons n : 1 <= n -> exists tl, range n = 0 :: tl.
Proof.
  intros Hn; unfold range.
  destruct (Z.to_nat n) as [|k] eqn:Hk; [lia|].
  simpl; eauto.
Qed.

(** X1. [draw_lines] with a direction other than vertical and horizontal
    raises [Exception] and leaves the drawing as it was. *)
Theorem draw_lines_bad_direction (self : GoBoard) (start : point)
    (direction : string) (s0 : option Drawing) :
  direction <> "vertical" ->
  direction <> "horizontal" ->
  draw_lines self start direction s0
  = (inl (Exception "Directions can only be horizontal or vertical"), s0).
Proof.
  intros Hv Hh; unfold draw_lines, direction_locals.
  apply String.eqb_neq in Hv, Hh; now rewrite Hv, Hh.
Qed.

Lemma draw_lines_bad_direction_witness :
  draw_lines board13 (Int 15, Int 15) "diagonal" None
  = (inl (Exception "Directions can only be horizontal or vertical"), None).
Proof.
  apply (draw_lines_bad_direction board13 (Int 15, Int 15) "diagonal" None);
    intros H; discriminate H.
Defined.

(** X2. Before a drawing exists ([self.drawing] is [None]) a board with at
    least one stroke per line cannot draw: [draw_multiple_lines] and
    [draw_starpoint] raise AttributeError, and so does [draw_lines] when
    the direction has at least one line; no drawing comes to exist. *)
Theorem draw_without_drawing (self : GoBoard) (start end_ : point) (i : nat) :
  1 <= multiple_lines self ->
  (i < 2)%nat ->
  let err := AttributeError "'NoneType' object has no attribute" in
  draw_multiple_lines self
    [VSeq start; VSeq end_; VNum (Int (Z.of_nat i))] None
  = (inl err, None)
  /\ draw_starpoint self start None = (inl err, None)
  /\ (1 <= lines_vertical self ->
      draw_lines self start "vertical" None = (inl err, None))
  /\ (1 <= lines_horizontal self ->
      draw_lines self start "horizontal" None = (inl err, None)).
Proof.
  intros Hml Hi err.
  destruct (range_cons _ Hml) as [tl Htl].
  assert (Hdml : forall s e (j : nat), (j < 2)%nat ->
             draw_multiple_lines self
               [VSeq s; VSeq e; VNum (Int (Z.of_nat j))] None
             = (inl err, None)).
  { intros s e j Hj; unfold draw_multiple_lines; rewrite Htl.
    destruct j as [|[|j]]; [reflexivity | reflexivity | lia]. }
  split; [now apply Hdml|].
  split; [unfold draw_starpoint; rewrite Htl; reflexivity|].
  split; intros Hn; destruct (range_cons _ Hn) as [tl' Htl'];
    unfold draw_lines;
    rewrite ?direction_locals_vertical, ?direction_locals_horizontal, Htl';
    cbn [for_each]; unfold bind; rewrite Hdml by lia; reflexivity.
Qed.

Lemma draw_without_drawing_witness :
  draw_lines board13 (Int 15, Int 15) "vertical" None
  = (inl (AttributeError "'NoneType' object has no attribute"), None).
Proof.
  destruct (draw_without_drawing board13 (Int 15, Int 15) (Int 279, Int 15) 1)
    as (_ & _ & Hv & _); [simpl; lia | lia |].
  apply Hv; simpl; lia.
Defined.

(** X3. [draw_multiple_lines] takes three arguments: called with any other
    number of them it raises TypeError and adds nothing to the drawing,
    whatever the arguments are. *)
Theorem draw_multiple_lines_arity (self : GoBoard) (args : list pyval)
    (s0 : option Drawing) :
  List.length args <> 3%nat ->
  draw_multiple_lines self args s0
  = (inl (TypeError "draw_multiple_lines() takes exactly 4 arguments"), s0).
Proof.
  intros Hlen.
  destruct args as [|a [|b [|c [|e args]]]]; try reflexivity.
  simpl in Hlen; lia.
Qed.

Lemma draw_multiple_lines_arity_witness :
  draw_multiple_lines board13
    [VSeq (Int 10, Int 10); VSeq (Int 20, Int 10); VNum (Int 2);
     VNum (Float 0.1); VNum (Int 1)]
    (Some (new_drawing (Int 30) (Int 120) "mm"))
  = (inl (TypeError "draw_multiple_lines() takes exactly 4 arguments"),
     Some (new_drawing (Int 30) (Int 120) "mm")).
Proof.
  apply (draw_multiple_lines_arity board13); simpl; lia.
Defined.

(** ** The drawing as a whole *)

(** X4. [draw] replaces the drawing: the result does not depend on what
    was drawn before, so drawing twice gives the elements once, and drawing
    the board after the test piece leaves nothing of the test piece. *)
Theorem draw_replaces_drawing (self : GoBoard) (s0 s1 : option Drawing) :
  draw self s0 = draw self s1
  /\ bind (draw self) (fun _ => draw self) s0 = draw self s0
  /\ draw self (snd (draw_test self s0)) = draw self s0.
Proof.
  split; [now rewrite !draw_run|].
  split; [unfold bind; now rewrite !draw_run|].
  now rewrite !draw_run.
Qed.



(** X6. With no stroke per line ([multiple_lines <= 0]) the loops of
    [draw_multiple_lines] and [draw_starpoint] do not run: the drawn board
    is its border alone, or empty without a border. *)
Theorem draw_no_strokes (self : GoBoard) (s0 : option Drawing) :
  multiple_lines self <= 0 ->
  exists d,
    draw self s0 = (inr tt, Some d) /\
    elements d
    = if border self then
        border_rect self :: (if half_board self then [top_cut self] else [])
      else [].
Proof.
  intros Hml; eexists; split; [apply draw_run|].
  rewrite elements_extend; simpl elements; simpl app.
  assert (Hr : range (multiple_lines self) = []).
  { unfold range; replace (Z.to_nat (multiple_lines self)) with 0%nat by lia.
    reflexivity. }
  assert (Hg : forall start direction,
             grid_strokes self start direction = []).
  { intros start direction; unfold grid_strokes, strokes; rewrite Hr.
    apply flat_map_nil. }
  assert (Hs : forall start, star_elements self start = []).
  { intros start; unfold star_elements, star_circles; rewrite Hr.
    apply flat_map_nil. }
  unfold board_elements, border_elements.
  rewrite !Hg, Hs, !app_nil_r; reflexivity.
Qed.

Lemma draw_no_strokes_witness :
  exists d,
    draw (mkGoBoard
            (mkOptions true (Int 15) (Int 10) (Int 22) (Float 23.7)
               (Float 0.15) 0 (Float 0.25) (Int 4) "mm"
               (mkColors "black" "red" "white") 13 13 [(6, 6)] false)
            (Float 294.15) (Float 314.55)) None
    = (inr tt, Some d) /\
    elements d
    = [ Rect (Some (Int 0, Int 0))
             (Float (294.15 - 0.15), Float (314.55 - 0.15))
             "black" (Float 0.15) "white" (Int 10) (Int 10) ].
Proof.
  destruct (draw_no_strokes
              (mkGoBoard
                 (mkOptions true (Int 15) (Int 10) (Int 22) (Float 23.7)
                    (Float 0.15) 0 (Float 0.25) (Int 4) "mm"
                    (mkColors "black" "red" "white") 13 13 [(6, 6)] false)
                 (Float 294.15) (Float 314.55)) None)
    as (d & Hrun & Hel); [simpl; lia|].
  exists d; split; [exact Hrun | exact Hel].
Defined.

(** ** Half boards *)

Lemma elements_drawn w h u es :
  elements (extend (new_drawing w h u) es) = es.
Proof. reflexivity. Qed.

Lemma GoBoard_init_half o :
  half_board o = true ->
  Z.odd (lines_vertical o) = true ->
  GoBoard_init o
  = inr (mkGoBoard (with_lines_vertical o ((lines_vertical o + 1) / 2))
           (Int (lines_horizontal o - 1) * spacing_horizontal o
            + linewidth o + margin o * Int 2)%num
           (Int ((lines_vertical o + 1) / 2 - 1) * spacing_vertical o
            + linewidth o + margin o)%num).
Proof.
  intros Hh Ho; unfold GoBoard_init; now rewrite Hh, (odd_mod_2 _ Ho).
Qed.

Lemma odd_half z :
  Z.odd z = true -> (z + 1) / 2 - 1 = (z - 1) / 2 /\ z = 2 * ((z - 1) / 2) + 1.
Proof.
  intros Ho; rewrite Z.odd_spec in Ho; destruct Ho as [k ->].
  replace (2 * k + 1 + 1) with ((k + 1) * 2) by lia.
  replace (2 * k + 1 - 1) with (k * 2) by lia.
  rewrite !Z.div_mul by lia; lia.
Qed.

(** X7. A half board with an odd, positive number of vertical lines draws
    [multiple_lines] strokes for each of its
    [lines_horizontal + (lines_vertical + 1) / 2] logical lines, and one
    more line, the cut, when it has a border. *)
Theorem half_board_line_count (o : Options) (s0 : option Drawing) :
  half_board o = true ->
  Z.odd (lines_vertical o) = true ->
  0 <= lines_vertical o ->
  0 <= lines_horizontal o ->
  0 <= multiple_lines o ->
  exists self d,
    GoBoard_init o = inr self /\
    draw self s0 = (inr tt, Some d) /\
    count is_line (elements d)
    = multiple_lines o * (lines_horizontal o + (lines_vertical o + 1) / 2)
      + (if border o then 1 else 0).
Proof.
  intros Hhalf Hodd Hlv Hlh Hml.
  exists (mkGoBoard (with_lines_vertical o ((lines_vertical o + 1) / 2))
            (Int (lines_horizontal o - 1) * spacing_horizontal o
             + linewidth o + margin o * Int 2)%num
            (Int ((lines_vertical o + 1) / 2 - 1) * spacing_vertical o
             + linewidth o + margin o)%num).
  set (self := mkGoBoard _ _ _).
  eexists; split; [now apply GoBoard_init_half|].
  split; [apply draw_run|].
  unfold count; rewrite elements_drawn.
  rewrite lines_of_board.
  change (half_board self) with (half_board o).
  change (border self) with (border o).
  rewrite Hhalf, andb_true_r.
  unfold len.
  rewrite !length_app, !length_grid_strokes,
    length_grid_lines_vertical, length_grid_lines_horizontal.
  change (lines_vertical self) with ((lines_vertical o + 1) / 2).
  change (lines_horizontal self) with (lines_horizontal o).
  change (multiple_lines self) with (multiple_lines o).
  assert (0 <= (lines_vertical o + 1) / 2) by (apply Z.div_pos; lia).
  destruct (border o); simpl List.length; nia.
Qed.

Lemma half_board_line_count_witness :
  exists self d,
    GoBoard_init (DefaultOptions size13 true) = inr self /\
    draw self None = (inr tt, Some d) /\
    count is_line (elements d) = 41.
Proof.
  destruct (half_board_line_count (DefaultOptions size13 true) None)
    as (self & d & Hinit & Hrun & Hcount);
    [reflexivity | reflexivity | simpl; lia | simpl; lia | simpl; lia |].
  exists self, d; split; [exact Hinit|]; split; [exact Hrun | exact Hcount].
Defined.

Lemma filter_map_shift (m : Z) (ps : list (Z * Z)) :
  filter (fun p => 0 <=? snd p) (map (fun p => (fst p, snd p - m)) ps)
  = map (fun p => (fst p, snd p - m)) (filter (fun p => m <=? snd p) ps).
Proof.
  induction ps as [|p ps IH]; simpl; [reflexivity|].
  rewrite IH.
  destruct (Z.leb_spec 0 (snd p - m)), (Z.leb_spec m (snd p));
    try lia; reflexivity.
Qed.

(** X8. On a half board the star points kept are those on the centre row
    [(lines_vertical - 1) / 2] of the full board or below it, each moved up
    by that many rows; a star point inside the full grid stays inside the
    half grid; and the drawing holds [multiple_lines] circles for each. *)
Theorem half_board_star_points (o : Options) (self : GoBoard)
    (s0 : option Drawing) :
  GoBoard_init o = inr self ->
  half_board o = true ->
  0 <= multiple_lines o ->
  let centre := (lines_vertical o - 1) / 2 in
  retained_star_points self
  = map (fun p => (fst p, snd p - centre))
        (filter (fun p => centre <=? snd p) (star_points o))
  /\ (forall p, In p (retained_star_points self) ->
        exists q, In q (star_points o) /\ p = (fst q, snd q - centre)
                  /\ (snd q <= lines_vertical o - 1 ->
                      0 <= snd p <= lines_vertical self - 1))
  /\ exists d,
       draw self s0 = (inr tt, Some d) /\
       count is_circle (elements d)
       = multiple_lines o
         * len (filter (fun p => centre <=? snd p) (star_points o)).
Proof.
  intros Hinit Hhalf Hml centre.
  assert (Hodd : Z.odd (lines_vertical o) = true).
  { unfold GoBoard_init in Hinit; rewrite Hhalf in Hinit.
    destruct (lines_vertical o mod 2 =? 0) eqn:E; [discriminate Hinit|].
    rewrite <- Zeven_mod, <- Z.negb_odd in E.
    now destruct (Z.odd (lines_vertical o)). }
  rewrite (GoBoard_init_half o Hhalf Hodd) in Hinit.
  injection Hinit as <-.
  set (self := mkGoBoard _ _ _).
  destruct (odd_half _ Hodd) as [Hc Hlv].
  assert (Hret : retained_star_points self
                 = map (fun p => (fst p, snd p - centre))
                     (filter (fun p => centre <=? snd p) (star_points o))).
  { unfold retained_star_points, shifted, vert_pos_offset.
    change (half_board self) with (half_board o); rewrite Hhalf.
    change (lines_vertical self) with ((lines_vertical o + 1) / 2).
    change (star_points self) with (star_points o).
    rewrite Hc; apply filter_map_shift. }
  split; [exact Hret|].
  split.
  - intros p Hp; rewrite Hret in Hp.
    apply in_map_iff in Hp; destruct Hp as (q & <- & Hq).
    apply filter_In in Hq; destruct Hq as [Hq Hle].
    exists q; split; [exact Hq|]; split; [reflexivity|].
    intros Hin; simpl.
    change (lines_vertical self) with ((lines_vertical o + 1) / 2).
    apply Z.leb_le in Hle; fold centre in Hc, Hlv; lia.
  - eexists; split; [apply draw_run|].
    unfold count; rewrite elements_drawn.
    rewrite circles_of_board.
    unfold len; rewrite length_star_elements, Hret, length_map.
    change (multiple_lines self) with (multiple_lines o); lia.
Qed.

Lemma half_board_star_points_witness :
  retained_star_points half_board13 = [(6, 0); (3, 3); (9, 3)]
  /\ exists d,
       draw half_board13 None = (inr tt, Some d) /\
       count is_circle (elements d) = 6.
Proof.
  destruct (half_board_star_points (DefaultOptions size13 true)
              half_board13 None)
    as (Hret & _ & d & Hrun & Hcount);
    [reflexivity | reflexivity | simpl; lia |].
  split; [exact Hret|].
  exists d; split; [exact Hrun | exact Hcount].
Defined.

(** ** Where the grid lines are *)









(** ** Writing and [main] *)


Section WriteProperties.

Variable truthy : Drawing -> bool.





End WriteProperties.



(** ** The table of sizes *)

(** X14. [sizeOptions] has the four keys 7, 9, 13 and 19 and no other.
    Each size is square with an odd number of lines, so that a half board
    can be made of it; its star points lie on the grid, and they are the
    same seen from the opposite corner, so that the two halves of a board
    are alike. *)
Theorem sizeOptions_table (key : string) :
  match lookup key sizeOptions with
  | None => ~ In key ["7"; "9"; "13"; "19"]
  | Some s =>
      In key ["7"; "9"; "13"; "19"]
      /\ size_lines_horizontal s = size_lines_vertical s
      /\ Z.odd (size_lines_vertical s) = true
      /\ Forall (fun p =>
                   0 <= fst p <= size_lines_horizontal s - 1
                   /\ 0 <= snd p <= size_lines_vertical s - 1)
                (size_star_points s)
      /\ Forall (fun p =>
                   In (size_lines_horizontal s - 1 - fst p,
                       size_lines_vertical s - 1 - snd p)
                      (size_star_points s))
                (size_star_points s)
  end.
Proof.
  unfold sizeOptions; cbn [lookup].
  repeat
    (match goal with
     | |- context [String.eqb key ?k] =>
         destruct (String.eqb_spec key k) as [-> | ?];
         [ split; [simpl; tauto|];
           split; [reflexivity|];
           split; [reflexivity|];
           split; apply Forall_forall; intros p Hp; simpl in Hp;
           repeat (destruct Hp as [<- | Hp];
                   [ simpl;
                     first [lia | repeat (first [left; reflexivity | right])]
                   |]);
           destruct Hp
         |]
     end).
  simpl; intros [H | [H | [H | [H | []]]]]; congruence.
Qed.


(** ** Cut and mark *)

Lemma Forall_grid_strokes (P : element -> Prop) (self : GoBoard)
    start direction :
  (forall s e i l, P (stroke self s e i l)) ->
  Forall P (grid_strokes self start direction).
Proof.
  intros HP; unfold grid_strokes.
  apply Forall_flat_map, Forall_forall; intros se _.
  unfold strokes; apply Forall_map, Forall_forall; intros l _; apply HP.
Qed.

(** X15. A drawn board is its border part followed by its marks.  The
    border part is the rectangle and, on a half board, the cut line, both in
    the colour [cut_stroke]; it is empty without a border, when a half board
    has no cut line either.  All that follows, grid strokes and star
    circles, is in the colour [mark_stroke].  Every element has the stroke
    width [linewidth]. *)
Theorem cut_and_mark (self : GoBoard) (s0 : option Drawing) :
  exists d cut mark,
    draw self s0 = (inr tt, Some d)
    /\ elements d = cut ++ mark
    /\ len cut
       = (if border self then (if half_board self then 2 else 1) else 0)
    /\ Forall (fun e => stroke_of e = cut_stroke (colors self)) cut
    /\ Forall (fun e => stroke_of e = mark_stroke (colors self)
                        /\ is_rect e = false) mark
    /\ Forall (fun e => stroke_width_of e = linewidth self) (elements d).
Proof.
  exists (extend (new_drawing (width self) (height self) (unit self))
                 (board_elements self)),
         (border_elements self),
         (grid_strokes self (grid_start self) "vertical"
          ++ grid_strokes self (grid_start self) "horizontal"
          ++ star_elements self (grid_start self)).
  split; [apply draw_run|].
  rewrite elements_drawn.
  split; [reflexivity|].
  split.
  { unfold border_elements; destruct (border self), (half_board self);
      reflexivity. }
  split.
  { unfold border_elements; destruct (border self), (half_board self);
      repeat constructor. }
  assert (Hstars : forall (P : element -> Prop),
             (forall pos l, P (star_circle self pos l)) ->
             Forall P (star_elements self (grid_start self))).
  { intros P HP; unfold star_elements.
    apply Forall_flat_map, Forall_forall; intros p _.
    unfold star_circles; apply Forall_map, Forall_forall; intros l _.
    apply HP. }
  split.
  { repeat (apply Forall_app; split);
      try (apply Forall_grid_strokes; intros; split; reflexivity).
    apply Hstars; intros; split; reflexivity. }
  unfold board_elements.
  repeat (apply Forall_app; split);
    try (apply Forall_grid_strokes; intros; reflexivity).
  - unfold border_elements; destruct (border self), (half_board self);
      repeat constructor.
  - apply Hstars; intros; reflexivity.
Qed.
